(** * AetherSense chat backend: the enrichment pipeline of [chat-bot/main.py]

    A shallow embedding of the keyword extractor, the NASA data fetchers,
    the context enricher, the model normaliser, the buffered and streamed
    reply generators and the HTTP handlers built on them, followed by the
    properties the specification states about them.

    Conventions of the embedding.
    - A Python [str] is a [string] whose characters are the code points
      below 256 (Latin-1).  [str.lower], [str.strip] and UTF-8 encoding
      are written out for exactly that range, which is closed under
      lower-casing.
    - Parsed JSON is the inductive [json]; a Python [dict] is a [gmap]
      with string keys.
    - Effects are explicit: a computation threads the chronological list
      of [event]s (outbound calls and yielded fragments) and finishes
      with a value or a raised exception.  The outside world answers
      through the oracles of a [World], which see the events so far, so
      two calls of the same fetcher may well answer differently.
    - [print] writes to the process's standard output only; it is not an
      event of the model. *)

From stdpp Require Import gmap strings list pretty.
From Stdlib Require Import Floats.SpecFloat.
From Stdlib Require Import Strings.Ascii Strings.Byte.

Local Open Scope Z_scope.

(** ** Python string primitives on Latin-1 text *)

Module PyStr.

Definition code (c : ascii) : N := N_of_ascii c.

(** [str.lower] for one code point below 256: A-Z and the upper-case
    Latin-1 letters (0xC0-0xDE without the multiplication sign 0xD7)
    move up by 32. *)
Definition lower_char (c : ascii) : ascii :=
  let n := code c in
  if ((65 <=? n) && (n <=? 90) ||
      (192 <=? n) && (n <=? 222) && negb (n =? 215))%N
  then ascii_of_N (n + 32) else c.

Fixpoint lower (s : string) : string :=
  match s with
  | EmptyString => EmptyString
  | String c s' => String (lower_char c) (lower s')
  end.

(** [str.isspace] for one code point below 256. *)
Definition isspace (c : ascii) : bool :=
  let n := code c in
  ((9 <=? n) && (n <=? 13) || (28 <=? n) && (n <=? 32) ||
   (n =? 133) || (n =? 160))%N.

Fixpoint lstrip (s : string) : string :=
  match s with
  | EmptyString => EmptyString
  | String c s' => if isspace c then lstrip s' else s
  end.

Fixpoint rstrip (s : string) : string :=
  match s with
  | EmptyString => EmptyString
  | String c s' =>
      match rstrip s' with
      | EmptyString => if isspace c then EmptyString else String c EmptyString
      | r => String c r
      end
  end.

Definition strip (s : string) : string := rstrip (lstrip s).

Fixpoint startswith (p s : string) : bool :=
  match p, s with
  | EmptyString, _ => true
  | String _ _, EmptyString => false
  | String a p', String b s' => if Ascii.eqb a b then startswith p' s' else false
  end.

(** [needle in hay] on strings: substring containment. *)
Fixpoint contains (needle hay : string) : bool :=
  startswith needle hay ||
  match hay with
  | EmptyString => false
  | String _ hay' => contains needle hay'
  end.

(** Truthiness of a string. *)
Definition truthy (s : string) : bool :=
  match s with EmptyString => false | String _ _ => true end.

(** [sep.join(l)]. *)
Fixpoint join (sep : string) (l : list string) : string :=
  match l with
  | [] => ""
  | [x] => x
  | x :: rest => x +:+ sep +:+ join sep rest
  end.

(** [s[:n]]. *)
Fixpoint take (n : nat) (s : string) : string :=
  match n, s with
  | S n', String c s' => String c (take n' s')
  | _, _ => EmptyString
  end.

(** [s.encode("utf-8")] on Latin-1 text: one byte below 128, two above. *)
Definition encode_char (c : ascii) : list byte :=
  let n := code c in
  if (n <? 128)%N then [byte_of_ascii c]
  else [byte_of_ascii (ascii_of_N (192 + n / 64));
        byte_of_ascii (ascii_of_N (128 + n mod 64))].

Fixpoint encode (s : string) : list byte :=
  match s with
  | EmptyString => []
  | String c s' => encode_char c ++ encode s'
  end.

End PyStr.

(** ** Keyword extractor *)

Definition space_keywords : list string :=
  [ "space"; "mars"; "moon"; "sun"; "solar"; "asteroid"; "comet"; "planet";
    "galaxy"; "star"; "satellite"; "orbit"; "nasa"; "astronomy"; "cosmos";
    "universe"; "earth"; "weather"; "satellite"; "imagery"; "space weather" ].

(** The loop of [extract_space_keywords]: [found_keywords] starts empty
    and each vocabulary entry found in the lower-cased message is
    appended to it. *)
Definition extract_space_keywords (message : string) : list string :=
  let message_lower := PyStr.lower message in
  fold_left
    (fun found_keywords keyword =>
       if PyStr.contains keyword message_lower
       then found_keywords ++ [keyword]
       else found_keywords)
    space_keywords [].

(** ** Data model *)

(** Parsed JSON, as [response.json()] returns it. *)
#[warnings="-register-all"] Inductive json :=
  | JNull
  | JBool (b : bool)
  | JInt (n : Z)
  | JFloat (f : spec_float)
  | JStr (s : string)
  | JArr (l : list json)
  | JObj (m : gmap string json).

(** [Dict[str, Any]], the declared type of every fetcher's result. *)
Abbreviation dict := (gmap string json).

(** [ChatMessage], and the [{"role": ..., "content": ...}] dictionary
    [ensure_messages] turns it into. *)
Record message := Message { role : string; content : string }.

(** [ChatRequest]. *)
Record ChatRequest := {
  req_messages : list message;
  req_model : option string;
  req_stream : bool
}.

(** Exceptions, all subclasses of [Exception]: the classes the handlers
    raise on purpose, and everything else with the text [str(e)] shows. *)
Inductive exn :=
  | Exception (msg : string)
  | HTTPException (status_code : Z) (detail : json).

Inductive result (A : Type) :=
  | Ok (a : A)
  | Raise (e : exn).
Arguments Ok {A} a.
Arguments Raise {A} e.

(** One outbound request to the NASA API, by endpoint and parameters. *)
Inductive nasa_request :=
  | ReqApod
  | ReqNeoFeed (start_date end_date : string)
  | ReqEarthImagery (lat lon : spec_float) (date : string)
  | ReqMarsWeather
  | ReqSpaceWeather.

(** A chunk of a chat-completion stream: the [content] of the [delta] of
    each of its choices; [None] for a missing delta, [Some None] for a
    delta without content. *)
Record chunk := Chunk { chunk_choices : list (option (option string)) }.

(** What iterating the stream produces next: a chunk, or an exception
    raised by the transport; the end of the list is the end of the
    stream. *)
Inductive stream_item :=
  | Item (c : chunk)
  | Fault (e : exn).

(** Observable effects, oldest first. *)
Inductive event :=
  | EvNasaGet (r : nasa_request)
  | EvChatCreate (stream : bool) (model : string) (messages : list message)
  | EvYield (fragment : list byte).

(** The environment: configuration read at start-up, the two providers
    and the clock.  Each oracle sees the events so far.
    - [nasa_get] is [requests.get(...)], [raise_for_status()] and
      [.json()] together.
    - [chat_create] is [client.chat.completions.create] without
      streaming; it answers with the [message.content] of each choice.
    - [chat_stream] is the same call with [stream=True].
    - [py_repr] is [str()] on the JSON values whose rendering is not
      written out in [py_str] below.
    - [pydantic_coerce] is what the response model does with a value
      that is neither a string nor null where [Optional[str]] is
      declared: coerce it, or refuse it. *)
Record World := {
  DEFAULT_MODEL : string;
  today : list event -> string;
  nasa_get : list event -> nasa_request -> result dict;
  chat_create : list event -> string -> list message -> result (list (option string));
  chat_stream : list event -> string -> list message -> result (list stream_item);
  py_repr : json -> string;
  pydantic_coerce : json -> option string
}.

(** [str(v)] for a JSON value, as an f-string renders it. *)
Definition py_str (w : World) (v : json) : string :=
  match v with
  | JStr s => s
  | JNull => "None"
  | JBool true => "True"
  | JBool false => "False"
  | JInt n => pretty n
  | _ => py_repr w v
  end.

(** [str(e)]. *)
Definition exn_str (w : World) (e : exn) : string :=
  match e with
  | Exception msg => msg
  | HTTPException status_code detail =>
      pretty status_code +:+ ": " +:+ py_str w detail
  end.

(** ** Computations with effects and exceptions *)

Definition M (A : Type) : Type := list event -> result A * list event.

Definition ret {A} (a : A) : M A := fun tr => (Ok a, tr).

Definition raise {A} (e : exn) : M A := fun tr => (Raise e, tr).

Definition bind {A B} (c : M A) (k : A -> M B) : M B :=
  fun tr =>
    match c tr with
    | (Ok a, tr') => k a tr'
    | (Raise e, tr') => (Raise e, tr')
    end.

(** [try: body except Exception as e: handler(e)]; what [body] did
    before it raised stays done. *)
Definition try_except {A} (body : M A) (handler : exn -> M A) : M A :=
  fun tr =>
    match body tr with
    | (Ok a, tr') => (Ok a, tr')
    | (Raise e, tr') => handler e tr'
    end.

Definition lift {A} (r : result A) : M A := fun tr => (r, tr).

Definition emit (e : event) : M unit := fun tr => (Ok tt, tr ++ [e]).

Notation "'let*' x := c1 'in' c2" := (bind c1 (fun x => c2))
  (at level 10, x name, c1 at level 100, c2 at level 200).

(** ** Data fetchers *)

Definition error_payload (w : World) (what : string) (e : exn) : dict :=
  {[ "error" := JStr (what +:+ exn_str w e) ]}.

(** The body every fetcher shares: one GET, logged, and any exception
    turned into an ["error"] dictionary. *)
Definition fetch (w : World) (r : nasa_request) (what : string) : M dict :=
  fun tr =>
    let tr' := tr ++ [EvNasaGet r] in
    match nasa_get w tr r with
    | Ok payload => (Ok payload, tr')
    | Raise e => (Ok (error_payload w what e), tr')
    end.

Definition get_nasa_apod (w : World) : M dict :=
  fetch w ReqApod "Failed to fetch APOD: ".

Definition get_nasa_neo_today (w : World) : M dict :=
  fun tr =>
    let today := today w tr in
    fetch w (ReqNeoFeed today today) "Failed to fetch NEO data: " tr.



Definition get_nasa_mars_weather (w : World) : M dict :=
  fetch w ReqMarsWeather "Failed to fetch Mars weather: ".

Definition get_space_weather_alerts (w : World) : M dict :=
  fetch w ReqSpaceWeather "Failed to fetch space weather: ".

(** ** Context enricher *)

(** The newest-to-oldest scan for a message with role ["user"]; the
    result is its content, or [None] when the loop never breaks. *)
Definition last_user_message (messages : list message) : option string :=
  content <$> List.find (fun msg => String.eqb (role msg) "user") (rev messages).

(** [not user_message], for [None] and for the empty string alike. *)
Definition no_user_message (user_message : option string) : bool :=
  match user_message with
  | None => true
  | Some text => negb (PyStr.truthy text)
  end.

(** [any(keyword in category for keyword in space_keywords)]. *)
Definition any_keyword_in (category space_keywords : list string) : bool :=
  existsb (fun keyword => existsb (String.eqb keyword) category) space_keywords.

Definition apod_category : list string :=
  ["space"; "astronomy"; "cosmos"; "universe"; "star"; "galaxy"].
Definition neo_category : list string :=
  ["asteroid"; "comet"; "neo"; "earth"; "orbit"].
Definition mars_category : list string :=
  ["mars"; "weather"; "planet"].
Definition space_weather_category : list string :=
  ["space weather"; "solar"; "sun"; "weather"].

(** [if "error" not in data: nasa_data[key] = data]. *)
Definition keep_unless_error (key : string) (data : dict)
    (nasa_data : gmap string dict) : gmap string dict :=
  match data !! "error" with
  | None => <[key := data]> nasa_data
  | Some _ => nasa_data
  end.

(** [d.get(key, default)]. *)
Definition dict_get (d : dict) (key : string) (default_value : json) : json :=
  default default_value (d !! key).

Definition py_type_name (v : json) : string :=
  match v with
  | JNull => "NoneType"
  | JBool _ => "bool"
  | JInt _ => "int"
  | JFloat _ => "float"
  | JStr _ => "str"
  | JArr _ => "list"
  | JObj _ => "dict"
  end.

(** [v[:200]]: strings and lists are sliced, every other value raises.
    The text of the exception is never observed: the enricher discards
    it. *)
Definition slice_200 (v : json) : result json :=
  match v with
  | JStr s => Ok (JStr (PyStr.take 200 s))
  | JArr l => Ok (JArr (take 200 l))
  | JObj _ => Raise (Exception "unhashable type: 'slice'")
  | _ => Raise (Exception ("'" +:+ py_type_name v +:+ "' object is not subscriptable"))
  end.

(** [len(v)]. *)
Definition py_len (v : json) : result Z :=
  match v with
  | JStr s => Ok (Z.of_nat (String.length s))
  | JArr l => Ok (Z.of_nat (length l))
  | JObj m => Ok (Z.of_nat (size m))
  | _ => Raise (Exception ("object of type '" +:+ py_type_name v +:+ "' has no len()"))
  end.

Definition nl : string := String (ascii_of_N 10) EmptyString.
Definition indent : string := "                ".
(** One line of a triple-quoted block, with its sixteen leading blanks. *)
Definition ln (text : string) : string := indent +:+ text +:+ nl.

Definition context_header (space_keywords : list string) : string :=
  nl +:+ ln "REAL NASA DATA FETCHED:"
     +:+ ln ("- Space keywords detected: " +:+ PyStr.join ", " space_keywords)
     +:+ ln "" +:+ indent.

Definition apod_section (w : World) (apod : dict) : result string :=
  match slice_200 (dict_get apod "explanation" (JStr "N/A")) with
  | Raise e => Raise e
  | Ok explanation =>
      Ok (nl +:+ ln "ASTRONOMY PICTURE OF THE DAY:"
             +:+ ln ("- Title: " +:+ py_str w (dict_get apod "title" (JStr "N/A")))
             +:+ ln ("- Explanation: " +:+ py_str w explanation +:+ "...")
             +:+ ln ("- Image URL: " +:+ py_str w (dict_get apod "url" (JStr "N/A")))
             +:+ ln ("- Date: " +:+ py_str w (dict_get apod "date" (JStr "N/A")))
             +:+ indent)
  end.

Definition neo_section (w : World) (neo : dict) : string :=
  let neo_count := dict_get neo "element_count" (JInt 0) in
  nl +:+ ln "" +:+ ln "NEAR EARTH OBJECTS TODAY:"
     +:+ ln ("- Total objects: " +:+ py_str w neo_count)
     +:+ ln "- Data source: NASA NEO API" +:+ indent.

Definition mars_section (mars : dict) : result string :=
  match py_len (dict_get mars "sol_keys" (JArr [])) with
  | Raise e => Raise e
  | Ok n =>
      Ok (nl +:+ ln "" +:+ ln "MARS WEATHER:"
             +:+ ln "- Data available: Yes"
             +:+ ln "- Source: NASA InSight lander"
             +:+ ln ("- Sol keys: " +:+ pretty n +:+ " available") +:+ indent)
  end.

Definition space_weather_section : string :=
  nl +:+ ln "" +:+ ln "SPACE WEATHER:"
     +:+ ln "- Alerts available: Yes"
     +:+ ln "- Source: NASA DONKI" +:+ indent.

Definition context_footer : string :=
  nl +:+ ln ""
     +:+ ln "Use this REAL NASA data to provide accurate, data-driven responses. Include specific details from the actual NASA data in your response."
     +:+ indent.

(** [nasa_context], built section by section in the order of the source;
    a section whose formatting raises aborts the whole rendering. *)
Definition render_context (w : World) (space_keywords : list string)
    (nasa_data : gmap string dict) : M string :=
  let nasa_context := context_header space_keywords in
  let* nasa_context :=
    match nasa_data !! "apod" with
    | Some apod =>
        let* section := lift (apod_section w apod) in
        ret (nasa_context +:+ section)
    | None => ret nasa_context
    end in
  let nasa_context :=
    match nasa_data !! "neo" with
    | Some neo => nasa_context +:+ neo_section w neo
    | None => nasa_context
    end in
  let* nasa_context :=
    match nasa_data !! "mars_weather" with
    | Some mars =>
        let* section := lift (mars_section mars) in
        ret (nasa_context +:+ section)
    | None => ret nasa_context
    end in
  let nasa_context :=
    match nasa_data !! "space_weather" with
    | Some _ => nasa_context +:+ space_weather_section
    | None => nasa_context
    end in
  ret (nasa_context +:+ context_footer).

(** The [try] block of [enhance_prompt_with_nasa_data]. *)
Definition enhance_body (w : World) (messages : list message) : M (list message) :=
  let user_message := last_user_message messages in
  if no_user_message user_message then ret messages else
  let space_keywords := extract_space_keywords (default "" user_message) in
  match space_keywords with
  | [] => ret messages
  | _ :: _ =>
      let nasa_data : gmap string dict := ∅ in
      let* nasa_data :=
        if any_keyword_in apod_category space_keywords then
          let* apod_data := get_nasa_apod w in
          ret (keep_unless_error "apod" apod_data nasa_data)
        else ret nasa_data in
      let* nasa_data :=
        if any_keyword_in neo_category space_keywords then
          let* neo_data := get_nasa_neo_today w in
          ret (keep_unless_error "neo" neo_data nasa_data)
        else ret nasa_data in
      let* nasa_data :=
        if any_keyword_in mars_category space_keywords then
          let* mars_data := get_nasa_mars_weather w in
          ret (keep_unless_error "mars_weather" mars_data nasa_data)
        else ret nasa_data in
      let* nasa_data :=
        if any_keyword_in space_weather_category space_keywords then
          let* space_weather := get_space_weather_alerts w in
          ret (keep_unless_error "space_weather" space_weather nasa_data)
        else ret nasa_data in
      if bool_decide (nasa_data = ∅) then ret messages else
      let* nasa_context := render_context w space_keywords nasa_data in
      (* enhanced_messages = messages.copy(); insert(0, ...) *)
      ret (Message "system" nasa_context :: messages)
  end.

Definition enhance_prompt_with_nasa_data (w : World) (messages : list message)
    : M (list message) :=
  try_except (enhance_body w messages) (fun _ => ret messages).

(** ** Reply generation *)

Definition normalize_model (w : World) (model : option string) : string :=
  let requested := PyStr.strip (default "" model) in
  if negb (PyStr.truthy requested) then DEFAULT_MODEL w
  else if String.eqb (PyStr.lower requested) "gpt-5" then "gpt-5"
  else requested.

Definition ensure_messages (messages : list message) : list message :=
  map (fun msg => {| role := role msg; content := content msg |}) messages.

(** [client.chat.completions.create(model=..., messages=...)]. *)
Definition completions_create (w : World) (model : string)
    (messages : list message) : M (list (option string)) :=
  fun tr => (chat_create w tr model messages,
             tr ++ [EvChatCreate false model messages]).

(** The same call with [stream=True]; the items are what iterating the
    returned stream will produce. *)
Definition completions_create_stream (w : World) (model : string)
    (messages : list message) : M (list stream_item) :=
  fun tr => (chat_stream w tr model messages,
             tr ++ [EvChatCreate true model messages]).

(** [resp.choices[0].message.content or ""]. *)
Definition first_choice_content (choices : list (option string)) : M string :=
  match choices with
  | [] => raise (Exception "list index out of range")
  | message_content :: _ => ret (default "" message_content)
  end.

(** The [try] block of [generate_reply]. *)
Definition generate_reply_body (w : World) (model : option string)
    (messages : list message) : M string :=
  let user_message := last_user_message messages in
  if no_user_message user_message then ret "No user message found" else
  let space_keywords := extract_space_keywords (default "" user_message) in
  match space_keywords with
  | _ :: _ =>
      let* enhanced_messages := enhance_prompt_with_nasa_data w messages in
      let mdl := normalize_model w model in
      let* resp := completions_create w mdl enhanced_messages in
      first_choice_content resp
  | [] =>
      let mdl := normalize_model w model in
      let* resp := completions_create w mdl messages in
      first_choice_content resp
  end.

Definition generate_reply (w : World) (model : option string)
    (messages : list message) : M string :=
  try_except (generate_reply_body w model messages)
    (fun e => ret ("Error generating reply: " +:+ exn_str w e)).

(** [yield fragment]. *)
Definition yield_ (fragment : list byte) : M unit := emit (EvYield fragment).

(** The [for chunk in stream] loop. *)
Fixpoint consume_stream (stream : list stream_item) : M unit :=
  match stream with
  | [] => ret tt
  | Fault e :: _ => raise e
  | Item c :: rest =>
      match chunk_choices c with
      | [] => raise (Exception "list index out of range")
      | delta :: _ =>
          let* _ :=
            match delta with
            | Some (Some text) =>
                if PyStr.truthy text then yield_ (PyStr.encode text) else ret tt
            | _ => ret tt
            end in
          consume_stream rest
      end
  end.

Definition fallback_marker : string := "(stream disabled fallback)" +:+ nl.

(** The generator, run until it is exhausted; its fragments are the
    [EvYield] events it leaves behind. *)
Definition stream_tokens_from_openai (w : World) (model : option string)
    (messages : list message) : M unit :=
  try_except
    (let* enhanced_messages := enhance_prompt_with_nasa_data w messages in
     let mdl := normalize_model w model in
     let* stream := completions_create_stream w mdl enhanced_messages in
     consume_stream stream)
    (fun _ =>
       let* reply := generate_reply w model messages in
       yield_ (PyStr.encode (fallback_marker +:+ reply))).

(** The fragments yielded in a trace, oldest first. *)
Definition emitted (tr : list event) : list (list byte) :=
  omap (fun e => match e with EvYield fragment => Some fragment | _ => None end) tr.

(** ** HTTP surface *)

Record http_response := HttpResponse { status : Z; body : json }.

(** What the framework sends for a handler's outcome: the returned value
    with 200, an [HTTPException] with its own status and detail, any
    other exception as a bare 500. *)
Definition respond (outcome : result json) : http_response :=
  match outcome with
  | Ok value => HttpResponse 200 value
  | Raise (HTTPException status_code detail) =>
      HttpResponse status_code (JObj {[ "detail" := detail ]})
  | Raise (Exception _) => HttpResponse 500 (JStr "Internal Server Error")
  end.

Definition serve (handler : M json) : list event -> http_response * list event :=
  fun tr => let (outcome, tr') := handler tr in (respond outcome, tr').








(** [request.model or DEFAULT_MODEL]. *)
Definition requested_model (w : World) (request : ChatRequest) : string :=
  match req_model request with
  | Some m => if PyStr.truthy m then m else DEFAULT_MODEL w
  | None => DEFAULT_MODEL w
  end.

(** POST /api/chat *)
Definition chat_non_streaming (w : World) (request : ChatRequest) : M json :=
  try_except
    (let messages := ensure_messages (req_messages request) in
     let model := requested_model w request in
     let* reply := generate_reply w (Some model) messages in
     ret (JObj {[ "reply" := JStr reply ]}))
    (fun e => raise (HTTPException 500 (JStr (exn_str w e)))).

(** POST /api/chat/stream: the body is produced by the generator. *)
Definition chat_stream_body (w : World) (request : ChatRequest) : M unit :=
  let messages := ensure_messages (req_messages request) in
  let model := requested_model w request in
  stream_tokens_from_openai w (Some model) messages.

(** ** Vocabulary of the properties *)

(** The declarative reading of [needle in hay]. *)
Definition substring (needle hay : string) : Prop :=
  exists before after, hay = before +:+ needle +:+ after.

(** What a fetcher hands back for an outcome of the provider. *)
Definition payload_of (w : World) (what : string) (r : result dict) : dict :=
  match r with
  | Ok payload => payload
  | Raise e => error_payload w what e
  end.

(** The requests the enricher sends for a set of keywords, in order,
    starting from the trace [tr]. *)
Definition planned_requests (w : World) (space_keywords : list string)
    (tr : list event) : list event :=
  let e1 := if any_keyword_in apod_category space_keywords
            then [EvNasaGet ReqApod] else [] in
  let e2 := if any_keyword_in neo_category space_keywords
            then [EvNasaGet (ReqNeoFeed (today w (tr ++ e1)) (today w (tr ++ e1)))]
            else [] in
  let e3 := if any_keyword_in mars_category space_keywords
            then [EvNasaGet ReqMarsWeather] else [] in
  let e4 := if any_keyword_in space_weather_category space_keywords
            then [EvNasaGet ReqSpaceWeather] else [] in
  e1 ++ e2 ++ e3 ++ e4.

(** The conversation as it was, or with one system message in front. *)
Definition enriched (messages outcome : list message) : Prop :=
  outcome = messages \/
  exists briefing, outcome = Message "system" briefing :: messages.

(** The number of events of a kind in a trace. *)
Definition calls (kind : event -> bool) (tr : list event) : nat :=
  length (List.filter kind tr).

Definition is_nasa_call (e : event) : bool :=
  match e with EvNasaGet _ => true | _ => false end.
Definition is_mars_weather_call (e : event) : bool :=
  match e with EvNasaGet ReqMarsWeather => true | _ => false end.
Definition is_alerts_call (e : event) : bool :=
  match e with EvNasaGet ReqSpaceWeather => true | _ => false end.

(** What a delta contributes to the output of the stream loop. *)
Definition delta_fragments (delta : option (option string)) : list (list byte) :=
  match delta with
  | Some (Some text) => if PyStr.truthy text then [PyStr.encode text] else []
  | _ => []
  end.

(** The exception that ends the iteration of a stream, if any: the
    first fault of the transport or the first chunk without choices. *)
Fixpoint stream_failure (stream : list stream_item) : option exn :=
  match stream with
  | [] => None
  | Fault e :: _ => Some e
  | Item c :: rest =>
      match chunk_choices c with
      | [] => Some (Exception "list index out of range")
      | _ :: _ => stream_failure rest
      end
  end.

(** The fragments of the chunks that arrive before the stream ends or
    fails. *)
Fixpoint stream_fragments (stream : list stream_item) : list (list byte) :=
  match stream with
  | [] => []
  | Fault _ :: _ => []
  | Item c :: rest =>
      match chunk_choices c with
      | [] => []
      | delta :: _ => delta_fragments delta ++ stream_fragments rest
      end
  end.



(** ** Sample environments

    Concrete worlds on which the definitions above are run. *)

Definition sample_apod : dict :=
  <["title" := JStr "Pillars of Creation"]>
    (<["explanation" := JStr "A star-forming region."]>
      (<["url" := JStr "https://apod.nasa.gov/pillars.jpg"]>
        {[ "date" := JStr "2025-01-01" ]})).

Definition sample_imagery : dict :=
  <["url" := JStr "https://earth.example/img.png"]>
    {[ "date" := JStr "2025-01-01" ]}.

(** A provider that answers every endpoint; [apod] is the image-of-day
    payload and [alerts] the outcome of the alerts endpoint. *)
Definition sample_nasa (apod : dict) (alerts : result dict)
    (r : nasa_request) : result dict :=
  match r with
  | ReqApod => Ok apod
  | ReqNeoFeed _ _ => Ok {[ "element_count" := JInt 3 ]}
  | ReqEarthImagery _ _ _ => Ok sample_imagery
  | ReqMarsWeather => Ok {[ "sol_keys" := JArr [JStr "675"; JStr "676"] ]}
  | ReqSpaceWeather => alerts
  end.

Definition sample_world (nasa : nasa_request -> result dict)
    (chat : result (list (option string)))
    (stream : result (list stream_item)) : World := {|
  DEFAULT_MODEL := "gpt-5";
  today := fun _ => "2025-01-01";
  nasa_get := fun _ r => nasa r;
  chat_create := fun _ _ _ => chat;
  chat_stream := fun _ _ _ => stream;
  py_repr := fun _ => "<object>";
  pydantic_coerce := fun _ => None
|}.

Definition read_timeout : exn := Exception "Read timed out.".

(** Everything works; the stream delivers two fragments. *)
Definition calm_world : World :=
  sample_world (sample_nasa sample_apod (Ok ∅)) (Ok [Some "Hello there"])
    (Ok [Item (Chunk [Some (Some "Hello")]); Item (Chunk [Some (Some " there")])]).

(** The stream breaks after its first fragment. *)
Definition broken_stream_world : World :=
  sample_world (sample_nasa sample_apod (Ok ∅)) (Ok [Some "Hello there"])
    (Ok [Item (Chunk [Some (Some "Hel")]); Fault read_timeout]).

(** The chat provider is down, with and without streaming. *)
Definition chat_down_world : World :=
  sample_world (sample_nasa sample_apod (Ok ∅)) (Raise read_timeout) (Raise read_timeout).

(** The image-of-day payload carries a number where text is expected. *)
Definition odd_apod_world : World :=
  sample_world (sample_nasa (<["explanation" := JInt 5]> sample_apod) (Ok ∅))
    (Ok [Some "Hello there"]) (Ok []).


Definition user (text : string) : message := Message "user" text.


(** * Properties *)

(** ** Strings *)

Module PyStrFacts.
Import PyStr.

Lemma append_cons c s t : String c s +:+ t = String c (s +:+ t).
Proof. reflexivity. Qed.

Lemma append_nil_l s : "" +:+ s = s.
Proof. reflexivity. Qed.

Lemma append_nil_r s : s +:+ "" = s.
Proof. induction s as [|c s IH]; [done|]. by rewrite append_cons, IH. Qed.

Lemma append_assoc s1 s2 s3 : (s1 +:+ s2) +:+ s3 = s1 +:+ (s2 +:+ s3).
Proof. induction s1 as [|c s1 IH]; [done|]. by rewrite !append_cons, IH. Qed.

Lemma startswith_spec p s :
  startswith p s = true <-> exists after, s = p +:+ after.
Proof.
  revert s. induction p as [|a p IH]; intros s; simpl.
  - split; [intros _; by exists s | done].
  - destruct s as [|b s].
    + split; [done | intros [after H]; discriminate H].
    + destruct (Ascii.eqb_spec a b) as [->|Hne].
      * rewrite IH. split; intros [after H]; exists after;
          rewrite append_cons in *; congruence.
      * split; [done | intros [after H]; rewrite append_cons in H; congruence].
Qed.

Lemma contains_spec needle hay :
  contains needle hay = true <-> substring needle hay.
Proof.
  unfold substring. induction hay as [|c hay IH].
  - simpl. rewrite orb_false_r, startswith_spec. split.
    + intros [after H]. by exists EmptyString, after.
    + intros [before [after H]]. destruct before; [by exists after | discriminate H].
  - cbn [contains]. rewrite orb_true_iff, startswith_spec, IH. split.
    + intros [[after H] | [before [after H]]].
      * by exists EmptyString, after.
      * exists (String c before), after. by rewrite append_cons, H.
    + intros [before [after H]]. destruct before as [|b before].
      * left. by exists after.
      * right. exists before, after. rewrite append_cons in H. congruence.
Qed.

Lemma encode_app s1 s2 : encode (s1 +:+ s2) = encode s1 ++ encode s2.
Proof.
  induction s1 as [|c s1 IH]; [done|].
  rewrite append_cons. simpl. by rewrite IH, app_assoc.
Qed.

Lemma truthy_false s : truthy s = false <-> s = "".
Proof. destruct s; simpl; split; congruence. Qed.

End PyStrFacts.

(** ** Keyword extractor *)

Section KeywordFacts.
Import PyStr PyStrFacts.

Lemma fold_append_filter (p : string -> bool) (l acc : list string) :
  fold_left (fun found k => if p k then found ++ [k] else found) l acc
  = acc ++ List.filter p l.
Proof.
  revert acc. induction l as [|k l IH]; intros acc; simpl.
  - by rewrite app_nil_r.
  - rewrite IH. destruct (p k); [by rewrite <- app_assoc | done].
Qed.

(** The loop computes the vocabulary filtered by containment, so the
    matches come out in vocabulary order. *)
Lemma extract_space_keywords_filter message :
  extract_space_keywords message
  = List.filter (fun k => contains k (lower message)) space_keywords.
Proof. unfold extract_space_keywords. by rewrite fold_append_filter. Qed.

(** Exactly the vocabulary terms that occur in the lower-cased text. *)
Lemma extract_space_keywords_sound message k :
  In k (extract_space_keywords message)
  <-> In k space_keywords /\ substring k (lower message).
Proof.
  rewrite extract_space_keywords_filter, filter_In, contains_spec. done.
Qed.

Example extract_mars_weather :
  extract_space_keywords "What is the WEATHER on Mars?" = ["mars"; "weather"].
Proof. reflexivity. Qed.

Lemma extract_space_keywords_empty_input : extract_space_keywords "" = [].
Proof. reflexivity. Qed.

Lemma extract_space_keywords_nil message :
  extract_space_keywords message = []
  <-> forall k, In k space_keywords -> ~ substring k (lower message).
Proof.
  split.
  - intros H k Hk Hs.
    assert (Hin : In k (extract_space_keywords message))
      by (apply extract_space_keywords_sound; done).
    rewrite H in Hin. destruct Hin.
  - intros H. destruct (extract_space_keywords message) as [|k l] eqn:E; [done|].
    assert (Hin : In k (extract_space_keywords message)) by (rewrite E; by left).
    apply extract_space_keywords_sound in Hin as [Hk Hs]. by destruct (H k Hk).
Qed.

(** Case does not matter: the extractor only looks at the lower-cased
    text. *)
Lemma extract_space_keywords_case m1 m2 :
  lower m1 = lower m2 -> extract_space_keywords m1 = extract_space_keywords m2.
Proof. intros H. rewrite !extract_space_keywords_filter. by rewrite H. Qed.

(** C1 — the keyword extractor on the message ["satellite"]: the
    vocabulary lists that term at two positions, so the output carries
    it twice and is not duplicate-free, although the claim allows at most
    one output entry per vocabulary term. *)
Theorem extract_space_keywords_satellite_twice :
  extract_space_keywords "satellite" = ["satellite"; "satellite"]
  /\ ~ NoDup (extract_space_keywords "satellite").
Proof.
  split; [reflexivity|].
  change (extract_space_keywords "satellite") with ["satellite"; "satellite"].
  intros H. apply NoDup_cons_1_1 in H. apply H. by left.
Qed.

End KeywordFacts.

(** ** Traces *)

Section TraceFacts.

Lemma emitted_app tr1 tr2 : emitted (tr1 ++ tr2) = emitted tr1 ++ emitted tr2.
Proof. unfold emitted. apply omap_app. Qed.

Lemma emitted_yields fragments : emitted (map EvYield fragments) = fragments.
Proof. induction fragments as [|f l IH]; [done|]. simpl. by rewrite IH. Qed.

Lemma emitted_yield fragment : emitted [EvYield fragment] = [fragment].
Proof. reflexivity. Qed.

Lemma emitted_chat stream model messages :
  emitted [EvChatCreate stream model messages] = [].
Proof. reflexivity. Qed.

Lemma calls_app kind tr1 tr2 : calls kind (tr1 ++ tr2) = (calls kind tr1 + calls kind tr2)%nat.
Proof. unfold calls. by rewrite List.filter_app, length_app. Qed.

Lemma planned_requests_quiet w kws tr : emitted (planned_requests w kws tr) = [].
Proof.
  unfold planned_requests.
  by destruct (any_keyword_in apod_category kws), (any_keyword_in neo_category kws),
    (any_keyword_in mars_category kws), (any_keyword_in space_weather_category kws).
Qed.

Lemma planned_requests_mars w kws tr :
  calls is_mars_weather_call (planned_requests w kws tr)
  = if any_keyword_in mars_category kws then 1%nat else 0%nat.
Proof.
  unfold planned_requests.
  by destruct (any_keyword_in apod_category kws), (any_keyword_in neo_category kws),
    (any_keyword_in mars_category kws), (any_keyword_in space_weather_category kws).
Qed.

Lemma planned_requests_alerts w kws tr :
  calls is_alerts_call (planned_requests w kws tr)
  = if any_keyword_in space_weather_category kws then 1%nat else 0%nat.
Proof.
  unfold planned_requests.
  by destruct (any_keyword_in apod_category kws), (any_keyword_in neo_category kws),
    (any_keyword_in mars_category kws), (any_keyword_in space_weather_category kws).
Qed.

Lemma any_keyword_in_intro category kws k :
  In k kws -> In k category -> any_keyword_in category kws = true.
Proof.
  intros Hk Hc. unfold any_keyword_in. apply existsb_exists. exists k. split; [done|].
  apply existsb_exists. exists k. split; [done | apply String.eqb_refl].
Qed.

End TraceFacts.

(** ** Context enricher *)

Section EnricherFacts.
Context (w : World).

Lemma fetch_run r what tr :
  fetch w r what tr
  = (Ok (payload_of w what (nasa_get w tr r)), tr ++ [EvNasaGet r]).
Proof. unfold fetch, payload_of. by destruct (nasa_get w tr r). Qed.

(** Rendering touches nothing outside. *)
Lemma render_context_run kws nasa_data tr :
  exists out, render_context w kws nasa_data tr = (out, tr).
Proof.
  unfold render_context, bind, lift, ret.
  destruct (nasa_data !! "apod") as [apod|]; [destruct (apod_section w apod)|];
    (destruct (nasa_data !! "mars_weather") as [mars|]; [destruct (mars_section mars)|]);
    eauto.
Qed.

Lemma last_user_message_none messages :
  (forall m, In m messages -> role m <> "user") ->
  last_user_message messages = None.
Proof.
  intros H. unfold last_user_message.
  destruct (List.find _ (rev messages)) as [m|] eqn:E; [|done].
  apply find_some in E as [Hin Hrole]. apply in_rev in Hin.
  apply String.eqb_eq in Hrole. by destruct (H m Hin).
Qed.

Lemma find_skip {A} (p : A -> bool) (l1 l2 : list A) :
  (forall x, In x l1 -> p x = false) ->
  List.find p (l1 ++ l2) = List.find p l2.
Proof.
  intros H. induction l1 as [|x l1 IH]; [done|]. simpl.
  rewrite (H x) by (by left). apply IH. intros y Hy. apply H. by right.
Qed.

(** The message found is the last one with role ["user"]. *)
Lemma last_user_message_some messages text :
  last_user_message messages = Some text <->
  exists before after,
    messages = before ++ Message "user" text :: after /\
    forall m, In m after -> role m <> "user".
Proof.
  unfold last_user_message. split.
  - destruct (List.find _ (rev messages)) as [m|] eqn:E; [|done].
    intros [= <-]. induction messages as [|x l IH] using rev_ind; [done|].
    rewrite rev_app_distr in E. simpl in E.
    destruct (String.eqb_spec (role x) "user") as [Hx|Hx].
    + injection E as ->. exists l, []. split; [|by intros ? []].
      destruct m as [r c]. simpl in Hx. by rewrite Hx.
    + destruct (IH E) as (before & after & -> & Hafter).
      exists before, (after ++ [x]). split; [by rewrite <- app_assoc|].
      intros m' [Hin|[<-|[]]]%in_app_or; [by apply Hafter | done].
  - intros (before & after & -> & Hafter).
    rewrite rev_app_distr. simpl. rewrite <- app_assoc, find_skip; [done|].
    intros m Hm%in_rev. apply String.eqb_neq. by apply Hafter.
Qed.

Lemma enhance_body_no_user messages tr :
  no_user_message (last_user_message messages) = true ->
  enhance_body w messages tr = (Ok messages, tr).
Proof. intros H. unfold enhance_body. by rewrite H. Qed.

Lemma enhance_body_no_keywords messages tr text :
  last_user_message messages = Some text ->
  extract_space_keywords text = [] ->
  enhance_body w messages tr = (Ok messages, tr).
Proof.
  intros Hu Hk. unfold enhance_body. rewrite Hu.
  change (default "" (Some text)) with text. rewrite Hk.
  by destruct (no_user_message (Some text)).
Qed.

(** With keywords present the enricher sends exactly the planned
    requests, whatever comes back, and then either gives up or puts one
    system message in front. *)
Lemma enhance_body_run messages tr text k ks :
  last_user_message messages = Some text ->
  PyStr.truthy text = true ->
  extract_space_keywords text = k :: ks ->
  exists out,
    enhance_body w messages tr = (out, tr ++ planned_requests w (k :: ks) tr)
    /\ match out with Ok result => enriched messages result | Raise _ => True end.
Proof.
  intros Hu Ht Hk. unfold enhance_body, planned_requests.
  rewrite Hu. unfold no_user_message. rewrite Ht. cbn [negb].
  change (default "" (Some text)) with text. rewrite Hk.
  generalize (k :: ks) as kws. intros kws.
  unfold get_nasa_apod, get_nasa_neo_today, get_nasa_mars_weather,
    get_space_weather_alerts.
  destruct (any_keyword_in apod_category kws), (any_keyword_in neo_category kws),
    (any_keyword_in mars_category kws), (any_keyword_in space_weather_category kws);
    unfold bind, ret; rewrite ?fetch_run.
  all: rewrite ?app_nil_r, <- ?app_assoc.
  all: match goal with |- context [bool_decide ?P] => destruct (bool_decide P) end.
  all: try (eexists; split; [reflexivity | by left]).
  all: match goal with |- context [render_context ?w0 ?k0 ?d ?t] =>
         destruct (render_context_run k0 d t) as [[c|e] ->] end.
  all: eexists; (split; [reflexivity|]); first [right; by eexists | done].
Qed.

(** Every way through the [try] block, in one statement. *)
Lemma enhance_body_cases messages tr :
  exists out ev,
    enhance_body w messages tr = (out, tr ++ ev)
    /\ emitted ev = []
    /\ match out with Ok result => enriched messages result | Raise _ => True end.
Proof.
  destruct (no_user_message (last_user_message messages)) eqn:Hn.
  - exists (Ok messages), []. rewrite app_nil_r.
    split; [by apply enhance_body_no_user | split; [done | by left]].
  - destruct (last_user_message messages) as [text|] eqn:Hu; [|done].
    simpl in Hn. apply negb_false_iff in Hn.
    destruct (extract_space_keywords text) as [|k ks] eqn:Hk.
    + exists (Ok messages), []. rewrite app_nil_r.
      split; [by eapply enhance_body_no_keywords | split; [done | by left]].
    + destruct (enhance_body_run messages tr text k ks Hu Hn Hk) as (out & Hrun & Hout).
      exists out, (planned_requests w (k :: ks) tr).
      split; [done | split; [apply planned_requests_quiet | done]].
Qed.

Lemma enhance_run messages tr :
  exists outcome ev,
    enhance_prompt_with_nasa_data w messages tr = (Ok outcome, tr ++ ev)
    /\ emitted ev = [] /\ enriched messages outcome.
Proof.
  destruct (enhance_body_cases messages tr) as (out & ev & Hrun & Hq & Hout).
  unfold enhance_prompt_with_nasa_data, try_except. rewrite Hrun.
  destruct out as [outcome|e].
  - by exists outcome, ev.
  - exists messages, ev. split; [done | split; [done | by left]].
Qed.

(** C4 — when the keywords of the latest user message contain both
    ["mars"] and ["weather"], the enricher calls the planetary-weather
    fetcher exactly once and the alerts fetcher exactly once. *)
Theorem enhance_mars_weather_calls_both_once messages tr text :
  last_user_message messages = Some text ->
  In "mars" (extract_space_keywords text) ->
  In "weather" (extract_space_keywords text) ->
  exists outcome ev,
    enhance_prompt_with_nasa_data w messages tr = (Ok outcome, tr ++ ev)
    /\ calls is_mars_weather_call ev = 1%nat
    /\ calls is_alerts_call ev = 1%nat.
Proof.
  intros Hu Hmars Hweather.
  assert (Ht : PyStr.truthy text = true).
  { destruct text; [destruct Hmars | done]. }
  destruct (extract_space_keywords text) as [|k ks] eqn:Hk; [destruct Hmars|].
  destruct (enhance_body_run messages tr text k ks Hu Ht Hk) as (out & Hrun & _).
  assert (Hm : any_keyword_in mars_category (k :: ks) = true).
  { apply (any_keyword_in_intro _ _ "mars"); [done | by left]. }
  assert (Ha : any_keyword_in space_weather_category (k :: ks) = true).
  { apply (any_keyword_in_intro _ _ "weather"); [done | do 3 right; by left]. }
  unfold enhance_prompt_with_nasa_data, try_except. rewrite Hrun.
  exists (match out with Ok outcome => outcome | Raise _ => messages end),
    (planned_requests w (k :: ks) tr).
  rewrite planned_requests_mars, planned_requests_alerts, Hm, Ha.
  by destruct out.
Qed.

(** C5 — a conversation without any user-role message, or whose latest
    user message contains no vocabulary keyword, comes back unchanged
    and the trace is left as it was: no fetcher is called. *)
Theorem enhance_without_keywords_is_identity messages tr :
  (forall m, In m messages -> role m <> "user")
  \/ (exists text, last_user_message messages = Some text
        /\ forall k, In k space_keywords -> ~ substring k (PyStr.lower text)) ->
  enhance_prompt_with_nasa_data w messages tr = (Ok messages, tr).
Proof.
  intros H. unfold enhance_prompt_with_nasa_data, try_except.
  destruct H as [Hnone | (text & Hu & Hk)].
  - rewrite enhance_body_no_user; [done|].
    by rewrite (last_user_message_none messages Hnone).
  - apply extract_space_keywords_nil in Hk.
    by rewrite (enhance_body_no_keywords messages tr text Hu Hk).
Qed.

(** C7 — the enricher always returns, and what it returns is the
    conversation itself or the conversation with exactly one system-role
    message inserted at position zero; the messages that were there keep
    their content and order. *)
Theorem enhance_extends_conversation messages tr :
  exists outcome tr',
    enhance_prompt_with_nasa_data w messages tr = (Ok outcome, tr')
    /\ (outcome = messages
        \/ exists briefing,
             outcome = {| role := "system"; content := briefing |} :: messages).
Proof.
  destruct (enhance_run messages tr) as (outcome & ev & Hrun & _ & Henr).
  by exists outcome, (tr ++ ev).
Qed.

(** C9 — the enricher never raises, and whenever its [try] block raises,
    at whatever step, it returns the original conversation. *)
Theorem enhance_is_exception_atomic messages tr :
  (exists outcome tr',
     enhance_prompt_with_nasa_data w messages tr = (Ok outcome, tr'))
  /\ (forall e tr',
        enhance_body w messages tr = (Raise e, tr') ->
        enhance_prompt_with_nasa_data w messages tr = (Ok messages, tr')).
Proof.
  split.
  - destruct (enhance_run messages tr) as (outcome & ev & Hrun & _).
    by exists outcome, (tr ++ ev).
  - intros e tr' Hraise. unfold enhance_prompt_with_nasa_data, try_except.
    by rewrite Hraise.
Qed.

End EnricherFacts.

(** ** Model normalisation *)

Section NormalizeFacts.
Context (w : World).
Import PyStr PyStrFacts.

(** C3 — an absent or blank identifier becomes the configured default;
    any other identifier is trimmed of surrounding whitespace and the
    trimmed text is returned, except that a spelling of ["gpt-5"] in any
    case is returned in lower case.  So normalisation is the identity on
    ["gpt-5"] and on every non-blank identifier that carries no
    surrounding whitespace and is not another spelling of ["gpt-5"]. *)
Theorem normalize_model_trims_and_canonicalises model :
  let requested := strip (default "" model) in
  (requested = "" -> normalize_model w model = DEFAULT_MODEL w)
  /\ (requested <> "" -> lower requested = "gpt-5" ->
      normalize_model w model = "gpt-5")
  /\ (requested <> "" -> lower requested <> "gpt-5" ->
      normalize_model w model = requested)
  /\ (forall m, model = Some m -> strip m = m -> m <> "" ->
      (lower m = "gpt-5" -> m = "gpt-5") ->
      normalize_model w model = m).
Proof.
  intros requested. unfold normalize_model. fold requested.
  assert (Hcases : forall r, r <> "" -> truthy r = true)
    by (intros [|c r]; done).
  repeat split.
  - intros ->. done.
  - intros Hne Hl. rewrite (Hcases _ Hne), Hl. done.
  - intros Hne Hl. rewrite (Hcases _ Hne). simpl.
    by destruct (String.eqb_spec (lower requested) "gpt-5").
  - intros m -> Hs Hne Hl. subst requested. simpl default. rewrite Hs.
    rewrite (Hcases _ Hne). simpl.
    destruct (String.eqb_spec (lower m) "gpt-5") as [Heq|]; [|done].
    symmetry. by apply Hl.
Qed.

End NormalizeFacts.

(** ** Reply generation *)

Section ReplyFacts.
Context (w : World).
Import PyStr PyStrFacts.

Lemma first_choice_content_run choices tr :
  exists out, first_choice_content choices tr = (out, tr).
Proof. destruct choices; simpl; eauto. Qed.

(** The [try] block of the buffered generator appends its calls to the
    trace and yields nothing. *)
Lemma generate_reply_body_run model messages tr :
  exists out ev,
    generate_reply_body w model messages tr = (out, tr ++ ev)
    /\ emitted ev = [].
Proof.
  unfold generate_reply_body.
  destruct (no_user_message (last_user_message messages)).
  { exists (Ok "No user message found"), []. by rewrite app_nil_r. }
  destruct (extract_space_keywords _) as [|k ks].
  - unfold bind, completions_create.
    destruct (chat_create w tr _ messages) as [choices|e].
    + destruct (first_choice_content_run choices
                  (tr ++ [EvChatCreate false (normalize_model w model) messages]))
        as [out ->].
      by exists out, [EvChatCreate false (normalize_model w model) messages].
    + by exists (Raise e), [EvChatCreate false (normalize_model w model) messages].
  - destruct (enhance_run w messages tr) as (enhanced & ev & Hrun & Hq & _).
    unfold bind. rewrite Hrun. unfold completions_create.
    destruct (chat_create w (tr ++ ev) _ enhanced) as [choices|e].
    + destruct (first_choice_content_run choices
                  ((tr ++ ev) ++ [EvChatCreate false (normalize_model w model) enhanced]))
        as [out ->].
      exists out, (ev ++ [EvChatCreate false (normalize_model w model) enhanced]).
      rewrite app_assoc, emitted_app, Hq. done.
    + exists (Raise e), (ev ++ [EvChatCreate false (normalize_model w model) enhanced]).
      rewrite app_assoc, emitted_app, Hq. done.
Qed.

Lemma generate_reply_run model messages tr :
  exists reply ev,
    generate_reply w model messages tr = (Ok reply, tr ++ ev)
    /\ emitted ev = [].
Proof.
  destruct (generate_reply_body_run model messages tr) as (out & ev & Hrun & Hq).
  unfold generate_reply, try_except. rewrite Hrun.
  destruct out as [reply|e]; unfold ret; eauto.
Qed.

(** C8 — the buffered generator always returns a text, and when its
    [try] block raises, the text is the error notice built from the
    exception. *)
Theorem generate_reply_never_raises model messages tr :
  exists reply tr',
    generate_reply w model messages tr = (Ok reply, tr')
    /\ forall e tr'',
         generate_reply_body w model messages tr = (Raise e, tr'') ->
         reply = "Error generating reply: " +:+ exn_str w e /\ tr' = tr''.
Proof.
  unfold generate_reply, try_except.
  destruct (generate_reply_body w model messages tr) as [[reply|e] tr'] eqn:E.
  - exists reply, tr'. split; [done | intros e tr'' [=]].
  - exists ("Error generating reply: " +:+ exn_str w e), tr'.
    split; [done | by intros e' tr'' [= <- <-]].
Qed.

(** A failing chat-completion call is reported in the text. *)
Lemma generate_reply_reports_provider_error model text e tr :
  extract_space_keywords text = [] -> truthy text = true ->
  chat_create w tr (normalize_model w model) [Message "user" text] = Raise e ->
  fst (generate_reply w model [Message "user" text] tr)
  = Ok ("Error generating reply: " +:+ exn_str w e).
Proof.
  intros Hk Ht He. unfold generate_reply, try_except, generate_reply_body.
  change (last_user_message [Message "user" text]) with (Some text).
  unfold no_user_message. rewrite Ht. cbn [negb].
  change (default "" (Some text)) with text. rewrite Hk. unfold bind, completions_create. by rewrite He.
Qed.

(** The stream loop yields the fragments that arrive before the stream
    ends or fails, and fails exactly when the stream does. *)
Lemma consume_stream_run stream tr :
  consume_stream stream tr
  = (match stream_failure stream with Some e => Raise e | None => Ok tt end,
     tr ++ map EvYield (stream_fragments stream)).
Proof.
  revert tr. induction stream as [|[c|e] rest IH]; intros tr; simpl.
  - by rewrite app_nil_r.
  - destruct (chunk_choices c) as [|delta choices]; simpl.
    { by rewrite app_nil_r. }
    unfold bind.
    destruct delta as [[text|]|]; simpl; try apply IH.
    destruct (truthy text); simpl; [|apply IH].
    unfold yield_, emit. rewrite IH. by rewrite <- app_assoc.
  - by rewrite app_nil_r.
Qed.

(** A stream that runs to its end is passed on fragment by fragment,
    with no fallback. *)
Lemma stream_success_is_passed_on model messages tr enhanced tr1 stream :
  enhance_prompt_with_nasa_data w messages tr = (Ok enhanced, tr1) ->
  chat_stream w tr1 (normalize_model w model) enhanced = Ok stream ->
  stream_failure stream = None ->
  stream_tokens_from_openai w model messages tr
  = (Ok tt, tr1 ++ [EvChatCreate true (normalize_model w model) enhanced]
                ++ map EvYield (stream_fragments stream)).
Proof.
  intros He Hs Hf. unfold stream_tokens_from_openai, try_except, bind.
  rewrite He. unfold completions_create_stream. rewrite Hs.
  rewrite consume_stream_run, Hf. by rewrite <- app_assoc.
Qed.

(** C2 — when the streaming call fails, the fragments already yielded
    stay in the output and one fallback fragment (the marker followed by
    the buffered generator's reply) is appended.  A failure at set-up has
    yielded nothing, so the output is the fallback fragment alone; a
    failure in mid-stream leaves the fragments that arrived before it in
    front of the fallback fragment. *)
Theorem stream_failure_appends_fallback model messages tr enhanced tr1 :
  enhance_prompt_with_nasa_data w messages tr = (Ok enhanced, tr1) ->
  let mdl := normalize_model w model in
  let opened := tr1 ++ [EvChatCreate true mdl enhanced] in
  (forall e,
     chat_stream w tr1 mdl enhanced = Raise e ->
     exists reply tr',
       generate_reply w model messages opened = (Ok reply, tr')
       /\ emitted (snd (stream_tokens_from_openai w model messages tr))
          = emitted tr ++ [encode (fallback_marker +:+ reply)])
  /\ (forall stream e,
        chat_stream w tr1 mdl enhanced = Ok stream ->
        stream_failure stream = Some e ->
        exists reply tr',
          generate_reply w model messages
            (opened ++ map EvYield (stream_fragments stream)) = (Ok reply, tr')
          /\ emitted (snd (stream_tokens_from_openai w model messages tr))
             = emitted tr ++ stream_fragments stream
                 ++ [encode (fallback_marker +:+ reply)]).
Proof.
  intros He mdl opened.
  assert (Hq : emitted tr1 = emitted tr).
  { destruct (enhance_run w messages tr) as (o & ev & Hrun & Hev & _).
    rewrite Hrun in He. injection He as _ <-. by rewrite emitted_app, Hev, app_nil_r. }
  split.
  - intros e Hs.
    destruct (generate_reply_run model messages opened) as (reply & ev & Hg & Hev).
    exists reply, (opened ++ ev). split; [done|].
    unfold stream_tokens_from_openai, try_except, bind.
    rewrite He. unfold completions_create_stream. fold mdl. rewrite Hs.
    fold opened. rewrite Hg. unfold yield_, emit. cbn [snd].
    unfold opened. rewrite !emitted_app, Hev, Hq, emitted_chat, emitted_yield.
    by rewrite !app_nil_r.
  - intros stream e Hs Hf.
    destruct (generate_reply_run model messages
                (opened ++ map EvYield (stream_fragments stream)))
      as (reply & ev & Hg & Hev).
    exists reply, ((opened ++ map EvYield (stream_fragments stream)) ++ ev).
    split; [done|].
    unfold stream_tokens_from_openai, try_except, bind.
    rewrite He. unfold completions_create_stream. fold mdl. rewrite Hs.
    fold opened. rewrite consume_stream_run, Hf, Hg. unfold yield_, emit. cbn [snd].
    unfold opened.
    rewrite !emitted_app, emitted_yields, Hev, Hq, emitted_chat, emitted_yield.
    by rewrite !app_nil_r, <- app_assoc.
Qed.

End ReplyFacts.

(** ** HTTP surface *)

Section HttpFacts.
Context (w : World).
Import PyStr PyStrFacts.








(** C10 — two requests to the buffered chat endpoint that differ at most
    in their [stream] flag get the same response and cause the same
    calls. *)
Theorem chat_non_streaming_ignores_stream_flag request1 request2 tr :
  req_messages request1 = req_messages request2 ->
  req_model request1 = req_model request2 ->
  serve (chat_non_streaming w request1) tr
  = serve (chat_non_streaming w request2) tr.
Proof.
  intros Hm Hmodel. unfold serve, chat_non_streaming, requested_model.
  by rewrite Hm, Hmodel.
Qed.

(** The buffered endpoint always answers 200: the generator has already
    turned every failure into text. *)
Lemma chat_non_streaming_status request tr :
  status (fst (serve (chat_non_streaming w request) tr)) = 200.
Proof.
  unfold serve, chat_non_streaming, try_except, bind.
  destruct (generate_reply_run w (Some (requested_model w request))
              (ensure_messages (req_messages request)) tr) as (reply & ev & -> & _).
  done.
Qed.

End HttpFacts.

(** ** Concrete runs *)

Lemma enhance_mars_weather_calls_both_once_run :
  exists outcome ev,
    enhance_prompt_with_nasa_data calm_world
      [user "What is the weather on Mars?"] [] = (Ok outcome, [] ++ ev)
    /\ calls is_mars_weather_call ev = 1%nat
    /\ calls is_alerts_call ev = 1%nat.
Proof.
  apply (enhance_mars_weather_calls_both_once calm_world
           [user "What is the weather on Mars?"] []
           "What is the weather on Mars?").
  - reflexivity.
  - vm_compute. left. reflexivity.
  - vm_compute. right. left. reflexivity.
Defined.

Lemma enhance_without_keywords_is_identity_run :
  enhance_prompt_with_nasa_data calm_world
    [user "Tell me a joke"; Message "assistant" "No."; user "Please?"] []
  = (Ok [user "Tell me a joke"; Message "assistant" "No."; user "Please?"], []).
Proof.
  apply (enhance_without_keywords_is_identity calm_world).
  right. exists "Please?". split; [reflexivity|].
  apply extract_space_keywords_nil. reflexivity.
Defined.

Lemma enhance_is_exception_atomic_run :
  enhance_body odd_apod_world [user "space"] []
  = (Raise (Exception "'int' object is not subscriptable"), [EvNasaGet ReqApod])
  /\ enhance_prompt_with_nasa_data odd_apod_world [user "space"] []
     = (Ok [user "space"], [EvNasaGet ReqApod]).
Proof.
  split; [vm_compute; reflexivity|].
  apply (proj2 (enhance_is_exception_atomic odd_apod_world [user "space"] [])
           (Exception "'int' object is not subscriptable")).
  vm_compute. reflexivity.
Defined.

Lemma generate_reply_never_raises_run :
  generate_reply_body chat_down_world (Some "gpt-4") [user "hi"] []
  = (Raise read_timeout, [EvChatCreate false "gpt-4" [user "hi"]])
  /\ fst (generate_reply chat_down_world (Some "gpt-4") [user "hi"] [])
     = Ok "Error generating reply: Read timed out.".
Proof.
  split; [vm_compute; reflexivity|].
  destruct (generate_reply_never_raises chat_down_world (Some "gpt-4") [user "hi"] [])
    as (reply & tr' & Hrun & Hraise).
  rewrite Hrun.
  destruct (Hraise read_timeout [EvChatCreate false "gpt-4" [user "hi"]])
    as [-> _]; [vm_compute|]; reflexivity.
Defined.

Lemma normalize_model_trims_and_canonicalises_run :
  normalize_model calm_world (Some "   ") = "gpt-5"
  /\ normalize_model calm_world (Some " GPT-5 ") = "gpt-5"
  /\ normalize_model calm_world (Some " gpt-4o ") = "gpt-4o"
  /\ normalize_model calm_world (Some "gpt-4o") = "gpt-4o".
Proof.
  split; [|split; [|split]].
  - apply (proj1 (normalize_model_trims_and_canonicalises calm_world (Some "   "))).
    reflexivity.
  - apply (proj1 (proj2
      (normalize_model_trims_and_canonicalises calm_world (Some " GPT-5 ")))).
    + discriminate.
    + reflexivity.
  - apply (proj1 (proj2 (proj2
      (normalize_model_trims_and_canonicalises calm_world (Some " gpt-4o "))))).
    + discriminate.
    + discriminate.
  - apply (proj2 (proj2 (proj2
      (normalize_model_trims_and_canonicalises calm_world (Some "gpt-4o"))))).
    + reflexivity.
    + reflexivity.
    + discriminate.
    + discriminate.
Defined.

(** Against C3 as first stated: two identifiers that are neither absent
    nor blank and that normalisation changes. *)
Lemma normalize_model_is_not_identity :
  PyStr.strip "GPT-5" <> "" /\ normalize_model calm_world (Some "GPT-5") <> "GPT-5"
  /\ PyStr.strip " gpt-4o " <> ""
  /\ normalize_model calm_world (Some " gpt-4o ") <> " gpt-4o ".
Proof. repeat split; vm_compute; discriminate. Qed.

Lemma stream_failure_appends_fallback_run :
  emitted (snd (stream_tokens_from_openai broken_stream_world (Some "gpt-4")
                  [user "hi"] []))
  = [PyStr.encode "Hel"; PyStr.encode (fallback_marker +:+ "Hello there")].
Proof.
  destruct (stream_failure_appends_fallback broken_stream_world (Some "gpt-4")
              [user "hi"] [] [user "hi"] [] eq_refl) as [_ Hmid].
  destruct (Hmid [Item (Chunk [Some (Some "Hel")]); Fault read_timeout]
              read_timeout eq_refl eq_refl) as (reply & tr' & Hreply & Hout).
  vm_compute in Hreply. injection Hreply as <- _. exact Hout.
Defined.

(** Against C2 as first stated: the stream delivers one fragment and
    then raises; the fragment stays in the output, which therefore is
    not the fallback fragment alone and does not begin with the
    marker. *)
Lemma stream_midfail_keeps_partial_fragments :
  chat_stream broken_stream_world [] "gpt-4" [user "hi"]
  = Ok [Item (Chunk [Some (Some "Hel")]); Fault read_timeout]
  /\ fst (generate_reply broken_stream_world (Some "gpt-4") [user "hi"] [])
     = Ok "Hello there"
  /\ emitted (snd (stream_tokens_from_openai broken_stream_world (Some "gpt-4")
                     [user "hi"] []))
     = [PyStr.encode "Hel"; PyStr.encode (fallback_marker +:+ "Hello there")]
  /\ emitted (snd (stream_tokens_from_openai broken_stream_world (Some "gpt-4")
                     [user "hi"] []))
     <> [PyStr.encode (fallback_marker +:+ "Hello there")].
Proof. repeat split; vm_compute; discriminate || reflexivity. Qed.


Lemma chat_non_streaming_ignores_stream_flag_run :
  serve (chat_non_streaming calm_world
           {| req_messages := [user "Is there weather on Mars?"];
              req_model := Some "gpt-4o"; req_stream := true |}) []
  = serve (chat_non_streaming calm_world
             {| req_messages := [user "Is there weather on Mars?"];
                req_model := Some "gpt-4o"; req_stream := false |}) [].
Proof.
  apply (chat_non_streaming_ignores_stream_flag calm_world); reflexivity.
Defined.
